(** * Bakery inventory: unit conversion and stock operations

    Shallow embedding of [bakery.py].  Python floats are modelled as exact
    rationals ([Q]); equality of quantities is therefore [Qeq] ([==]), and
    the structural parts of the state (names, units, order of the entries)
    are compared with Leibniz equality.  Python dictionaries keep their
    insertion order, so they are modelled as association lists. *)

From Stdlib Require Import QArith Qround ZArith String List Sorted Permutation Bool.
Import ListNotations.
Open Scope string_scope.
Open Scope Q_scope.

(** ** Dictionaries with insertion order *)

Section Dict.
Variable V : Type.

Definition dict := list (string * V).

(** [d[k]] / [k in d] *)
Fixpoint dict_get (d : dict) (k : string) : option V :=
  match d with
  | [] => None
  | (k', v) :: d' => if String.eqb k k' then Some v else dict_get d' k
  end.

Definition dict_mem (d : dict) (k : string) : bool :=
  match dict_get d k with Some _ => true | None => false end.

(** [d[k] = v]: an existing key keeps its position, a new key goes last. *)
Fixpoint dict_set (d : dict) (k : string) (v : V) : dict :=
  match d with
  | [] => [(k, v)]
  | (k', v') :: d' =>
      if String.eqb k k' then (k', v) :: d' else (k', v') :: dict_set d' k v
  end.

(** [not d] *)
Definition dict_empty (d : dict) : bool :=
  match d with [] => true | _ :: _ => false end.

Definition dict_keys (d : dict) : list string := map fst d.
Definition dict_values (d : dict) : list V := map snd d.
End Dict.

Arguments dict_get {V} d k.
Arguments dict_mem {V} d k.
Arguments dict_set {V} d k v.
Arguments dict_empty {V} d.
Arguments dict_keys {V} d.
Arguments dict_values {V} d.

(** ** Unit catalog *)

Definition CONVERSION_FACTORS : dict (dict Q) :=
  [ ("mass",   [ ("mg", 0.001); ("g", 1); ("kg", 1000);
                 ("oz", 28.3495); ("lb", 453.592) ]);
    ("volume", [ ("ml", 1); ("l", 1000);
                 ("tsp", 4.92892); ("tbsp", 14.7868) ]) ].

(** [[unit for cat in CONVERSION_FACTORS.values() for unit in cat]] *)
Definition get_all_units : list string :=
  flat_map (fun cat => dict_keys cat) (dict_values CONVERSION_FACTORS).

(** The [for category, units in ...items()] loop of [get_unit_type],
    over an arbitrary table. *)
Fixpoint unit_type_in (table : dict (dict Q)) (unit : string) : option string :=
  match table with
  | [] => None
  | (category, units) :: rest =>
      if dict_mem units unit then Some category else unit_type_in rest unit
  end.

Definition get_unit_type (unit : string) : option string :=
  unit_type_in CONVERSION_FACTORS unit.

(** ** Exceptions

    A table lookup of the source may raise [KeyError]; the embedding keeps
    that outcome apart from ordinary return values. *)

Inductive pyresult (A : Type) : Type :=
| Return (a : A)
| Raise_KeyError.

Arguments Return {A} a.
Arguments Raise_KeyError {A}.

Definition bind {A B : Type} (m : pyresult A) (k : A -> pyresult B) : pyresult B :=
  match m with
  | Return a => k a
  | Raise_KeyError => Raise_KeyError
  end.

Notation "x <- m ;; k" := (bind m (fun x => k))
  (at level 61, m at next level, right associativity).
Notation "' pat <- m ;; k" := (bind m (fun x => match x with pat => k end))
  (at level 61, pat pattern, m at next level, right associativity).

(** [d[k]] where a missing key raises. *)
Definition dict_index {V : Type} (d : dict V) (k : string) : pyresult V :=
  match dict_get d k with
  | Some v => Return v
  | None => Raise_KeyError
  end.

(** [CONVERSION_FACTORS[category]] with [category : Optional[str]]. *)
Definition units_of (category : option string) : pyresult (dict Q) :=
  match category with
  | Some c => dict_index CONVERSION_FACTORS c
  | None => Raise_KeyError
  end.

(** [CONVERSION_FACTORS[category][unit]] *)
Definition factor (category : option string) (unit : string) : pyresult Q :=
  units <- units_of category ;; dict_index units unit.

(** [a != b] on [Optional[str]] *)
Definition option_string_neqb (a b : option string) : bool :=
  match a, b with
  | Some x, Some y => negb (String.eqb x y)
  | None, None => false
  | _, _ => true
  end.

Definition is_None {A : Type} (a : option A) : bool :=
  match a with None => true | Some _ => false end.

(** ** Conversion engine *)

(** [convert_unit]: [Return None] is the incompatibility sentinel. *)
Definition convert_unit (value : Q) (from_unit to_unit : string)
  : pyresult (option Q) :=
  let from_type := get_unit_type from_unit in
  let to_type := get_unit_type to_unit in
  if option_string_neqb from_type to_type || is_None from_type then Return None
  else
    ff <- factor from_type from_unit ;;
    let base_value := value * ff in
    tf <- factor to_type to_unit ;;
    Return (Some (base_value / tf)).

(** Python's [round(x, 0)] on an exact value: nearest integer, ties to even. *)
Definition round_half_even (x : Q) : Z :=
  let f := Qfloor x in
  match Qcompare (x - inject_Z f) (1 # 2) with
  | Lt => f
  | Gt => (f + 1)%Z
  | Eq => if Z.even f then f else (f + 1)%Z
  end.

(** [round(x, 2)] *)
Definition round2 (x : Q) : Q := inject_Z (round_half_even (x * 100)) / 100.

(** [sorted(items, key=lambda x: x[1])]: the stable sort by factor. *)
Fixpoint insert_by_factor (x : string * Q) (l : list (string * Q))
  : list (string * Q) :=
  match l with
  | [] => [x]
  | y :: l' =>
      if Qle_bool (snd x) (snd y) then x :: y :: l'
      else y :: insert_by_factor x l'
  end.

Definition sorted_by_factor (l : list (string * Q)) : list (string * Q) :=
  fold_right insert_by_factor [] l.

(** The [for bigger_unit, factor in ...: if quantity >= factor: return ...]
    loop of [auto_convert]; [None] when the loop falls through. *)
Fixpoint first_fitting (quantity : Q) (units : list (string * Q))
  : option (Q * string) :=
  match units with
  | [] => None
  | (bigger_unit, f) :: rest =>
      if Qle_bool f quantity then Some (round2 (quantity / f), bigger_unit)
      else first_fitting quantity rest
  end.

(** Truth value of an [Optional[str]]. *)
Definition truthy (s : option string) : bool :=
  match s with
  | Some c => negb (String.eqb c EmptyString)
  | None => false
  end.

Definition auto_convert (quantity : Q) (unit : string) : pyresult (Q * string) :=
  let unit_type := get_unit_type unit in
  if negb (truthy unit_type) then Return (quantity, unit)
  else
    units <- units_of unit_type ;;
    let sorted_units := sorted_by_factor units in
    match first_fitting quantity (rev sorted_units) with
    | Some r => Return r
    | None => Return (quantity, unit)
    end.

(** ** Inventory *)

(** One value of the [inventory] dictionary: [{'quantity': .., 'unit': ..}]. *)
Record stock : Type := Stock { quantity : Q; unit : string }.

Definition inventory := dict stock.

(** What an operation reports (the message it prints). *)
Inductive reply : Type :=
| EmptyName           (* "Ingredient name cannot be empty." *)
| UnknownUnit         (* "Unknown unit." *)
| Updated             (* "'name' updated to q unit." *)
| IncompatibleUnits   (* "Cannot add. Unit ... is incompatible ..." / "Incompatible units." *)
| Added               (* "Added q unit to existing name. ..." *)
| Created             (* "q unit of name have been added to the inventory." *)
| NotFound            (* "Ingredient not found." *)
| InsufficientStock   (* "Error: Not enough name in stock. ..." *)
| Consumed.           (* "q unit of name has been consumed, ..." *)

(** [x in get_all_units()] *)
Definition known_unit (u : string) : bool := existsb (String.eqb u) get_all_units.

(** [get_validated_positive_float] over the successive answers of the user
    ([None] is an answer that does not parse): the first answer that is
    greater than zero, if there is one. *)
Fixpoint get_validated_positive_float (answers : list (option Q)) : option Q :=
  match answers with
  | [] => None
  | Some value :: rest =>
      if negb (Qle_bool value 0) then Some value
      else get_validated_positive_float rest
  | None :: rest => get_validated_positive_float rest
  end.

(** [add_ingredient], given the name and the unit as read (stripped and
    lower-cased) and the quantity returned by [get_validated_positive_float]. *)
Definition add_ingredient (inv : inventory) (name u : string) (q : Q)
  : pyresult (reply * inventory) :=
  if String.eqb name EmptyString then Return (EmptyName, inv)
  else if negb (known_unit u) then Return (UnknownUnit, inv)
  else
    match dict_get inv name with
    | Some current =>
        let current_unit := unit current in
        let current_quantity := quantity current in
        if Qeq_bool current_quantity 0 then
          Return (Updated, dict_set inv name (Stock q u))
        else
          converted_quantity <- convert_unit q u current_unit ;;
          match converted_quantity with
          | None => Return (IncompatibleUnits, inv)
          | Some c =>
              Return (Added,
                      dict_set inv name (Stock (current_quantity + c) current_unit))
          end
    | None => Return (Created, dict_set inv name (Stock q u))
    end.

(** [consume_ingredient], with the same reading of its arguments. *)
Definition consume_ingredient (inv : inventory) (name u : string) (q : Q)
  : pyresult (reply * inventory) :=
  match dict_get inv name with
  | None => Return (NotFound, inv)
  | Some current_data =>
      if negb (known_unit u) then Return (UnknownUnit, inv)
      else
        converted_quantity <- convert_unit q u (unit current_data) ;;
        match converted_quantity with
        | None => Return (IncompatibleUnits, inv)
        | Some c =>
            if negb (Qle_bool c (quantity current_data)) then
              Return (InsufficientStock, inv)
            else
              Return (Consumed,
                      dict_set inv name
                        (Stock (quantity current_data - c) (unit current_data)))
        end
  end.

(** What the display shows for one entry: the stored pair and, when
    [auto_convert] picked another unit, the approximation line. *)
Record shown : Type :=
  Shown { shown_name : string; shown_qty : Q; shown_unit : string;
          shown_approx : option (Q * string) }.

Definition show_entry (name : string) (data : stock) : pyresult shown :=
  let qty := quantity data in
  let u := unit data in
  '(converted_qty, bigger_unit) <- auto_convert qty u ;;
  Return (Shown name qty u
            (if negb (String.eqb bigger_unit u)
             then Some (converted_qty, bigger_unit) else None)).

Fixpoint show_entries (items : list (string * stock)) : pyresult (list shown) :=
  match items with
  | [] => Return []
  | (name, data) :: rest =>
      s <- show_entry name data ;;
      ss <- show_entries rest ;;
      Return (s :: ss)
  end.

(** [view_inventory]: [None] is "The inventory is empty." *)
Definition view_inventory (inv : inventory) : pyresult (option (list shown)) :=
  if dict_empty inv || forallb (fun data => Qeq_bool (quantity data) 0) (dict_values inv)
  then Return None
  else
    ss <- show_entries inv ;;
    Return (Some ss).

(** [search_ingredient] over the successive answers of the user: a name and
    the answer to "try another search?".  [None] when no name was found. *)
Fixpoint search_ingredient (inv : inventory) (answers : list (string * bool))
  : pyresult (option shown) :=
  match answers with
  | [] => Return None
  | (name, again) :: rest =>
      match dict_get inv name with
      | Some data =>
          s <- show_entry name data ;;
          Return (Some s)
      | None => if again then search_ingredient inv rest else Return None
      end
  end.

(** ** The menu loop as a trace of operations *)

Inductive op : Type :=
| OpAdd (name u : string) (q : Q)
| OpView
| OpConsume (name u : string) (q : Q)
| OpSearch (answers : list (string * bool)).

Definition step (inv : inventory) (o : op) : pyresult inventory :=
  match o with
  | OpAdd name u q =>
      '(_, inv') <- add_ingredient inv name u q ;; Return inv'
  | OpView => _ <- view_inventory inv ;; Return inv
  | OpConsume name u q =>
      '(_, inv') <- consume_ingredient inv name u q ;; Return inv'
  | OpSearch answers => _ <- search_ingredient inv answers ;; Return inv
  end.

Fixpoint run (inv : inventory) (ops : list op) : pyresult inventory :=
  match ops with
  | [] => Return inv
  | o :: rest => inv' <- step inv o ;; run inv' rest
  end.

(** The quantity an operation is called with, when it has one. *)
Definition positive_quantity (o : op) : Prop :=
  match o with
  | OpAdd _ _ q | OpConsume _ _ q => 0 < q
  | OpView | OpSearch _ => True
  end.

(** Every (category, unit) pair of the table, in table order. *)
Definition catalog_pairs : list (string * string) :=
  flat_map (fun cu => map (fun uf => (fst cu, fst uf)) (snd cu)) CONVERSION_FACTORS.

(** [u] is a key of some category of the table. *)
Definition catalog_unit (u : string) : Prop :=
  exists c units, dict_get CONVERSION_FACTORS c = Some units /\ dict_mem units u = true.

(** Orders on the items of a category, by factor. *)
Definition ascending (x y : string * Q) : Prop := snd x <= snd y.
Definition descending (x y : string * Q) : Prop := snd y <= snd x.

(** The auto-scaling of the specification, written from its words and not
    from the source: the quantity is first expressed in the base unit of the
    category, [b = q * factor(u)], and it is [b] that is compared with the
    factors and divided by the factor chosen. *)
Definition auto_scale_spec (q : Q) (u : string) : Q * string :=
  match get_unit_type u with
  | None => (q, u)
  | Some c =>
      match factor (Some c) u, units_of (Some c) with
      | Return fu, Return units =>
          let b := q * fu in
          match first_fitting b (rev (sorted_by_factor units)) with
          | Some r => r
          | None => (q, u)
          end
      | _, _ => (q, u)
      end
  end.

(** The state invariant of the data model. *)
Definition stock_ok (e : stock) : Prop := 0 <= quantity e /\ catalog_unit (unit e).
Definition inventory_ok (inv : inventory) : Prop :=
  Forall (fun kv => stock_ok (snd kv)) inv.

(** ** Facts about dictionaries *)

Section DictFacts.
Variable V : Type.
Implicit Types (d : dict V) (k : string) (v : V).

Lemma dict_get_set_same d k v : dict_get (dict_set d k v) k = Some v.
Proof.
  induction d as [|[k' v'] d IH]; simpl.
  - now rewrite String.eqb_refl.
  - destruct (String.eqb k k') eqn:E; simpl; rewrite E; auto.
Qed.

Lemma dict_get_set_other d k k' v :
  k' <> k -> dict_get (dict_set d k v) k' = dict_get d k'.
Proof.
  intros Hne. induction d as [|[k0 v0] d IH]; simpl.
  - apply String.eqb_neq in Hne. now rewrite Hne.
  - destruct (String.eqb k k0) eqn:E; simpl.
    + apply String.eqb_eq in E. subst k0.
      apply String.eqb_neq in Hne. now rewrite Hne.
    + now rewrite IH.
Qed.

Lemma dict_keys_set_present d k v e :
  dict_get d k = Some e -> dict_keys (dict_set d k v) = dict_keys d.
Proof.
  induction d as [|[k0 v0] d IH]; simpl; [discriminate|].
  destruct (String.eqb k k0) eqn:E; simpl; intros H; [reflexivity|].
  f_equal. now apply IH.
Qed.

Lemma dict_set_absent d k v :
  dict_get d k = None -> dict_set d k v = (d ++ [(k, v)])%list.
Proof.
  induction d as [|[k0 v0] d IH]; simpl; [reflexivity|].
  destruct (String.eqb k k0); [discriminate|].
  intros H. now rewrite IH.
Qed.

Variable P : V -> Prop.

Lemma dict_get_Forall d k e :
  Forall (fun kv => P (snd kv)) d -> dict_get d k = Some e -> P e.
Proof.
  induction 1 as [|[k0 v0] d H0 _ IH]; simpl; [discriminate|].
  destruct (String.eqb k k0); [intros [= <-]; exact H0 | exact IH].
Qed.

Lemma dict_set_Forall d k v :
  Forall (fun kv => P (snd kv)) d -> P v ->
  Forall (fun kv => P (snd kv)) (dict_set d k v).
Proof.
  intros Hd Hv. induction Hd as [|[k0 v0] d H0 Hd IH]; simpl.
  - constructor; [exact Hv | constructor].
  - destruct (String.eqb k k0); constructor; auto.
Qed.
End DictFacts.

Arguments dict_get_Forall {V} P d k e.
Arguments dict_set_Forall {V} P d k v.

(** ** Facts about the unit catalog *)

Lemma get_unit_type_pairs u c :
  get_unit_type u = Some c -> In (c, u) catalog_pairs.
Proof.
  unfold get_unit_type, CONVERSION_FACTORS, unit_type_in, dict_mem, dict_get.
  repeat (destruct (String.eqb u _) eqn:E;
          [ apply String.eqb_eq in E; subst u; intros [= <-]; simpl; tauto
          | clear E ]).
  discriminate.
Qed.

Lemma known_unit_type u :
  known_unit u = true -> exists c, get_unit_type u = Some c.
Proof.
  unfold known_unit. intros H. apply existsb_exists in H.
  destruct H as (x & Hin & E). apply String.eqb_eq in E. subst x.
  simpl in Hin.
  repeat (destruct Hin as [<- | Hin]; [eexists; reflexivity|]).
  contradiction.
Qed.

Lemma get_unit_type_known u c : get_unit_type u = Some c -> known_unit u = true.
Proof.
  intros H. apply get_unit_type_pairs in H. simpl in H.
  repeat (destruct H as [[= <- <-] | H]; [reflexivity|]).
  contradiction.
Qed.

Lemma get_unit_type_catalog u c : get_unit_type u = Some c -> catalog_unit u.
Proof.
  intros H. apply get_unit_type_pairs in H. simpl in H.
  repeat (destruct H as [[= Hc <-] | H];
          [exists c; rewrite <- Hc; eexists; split; reflexivity|]).
  contradiction.
Qed.

(** A unit that has a category has a positive factor in that category, and
    the category is a key of the table. *)
Lemma get_unit_type_factor u c :
  get_unit_type u = Some c ->
  exists f units, factor (Some c) u = Return f /\ 0 < f /\
                  units_of (Some c) = Return units /\ c <> EmptyString.
Proof.
  intros H. apply get_unit_type_pairs in H. simpl in H.
  repeat (destruct H as [[= <- <-] | H];
          [eexists _, _; repeat split; try reflexivity; discriminate|]).
  contradiction.
Qed.

(** ** Conversion *)

Lemma option_string_neqb_false a b :
  option_string_neqb a b = false <-> a = b.
Proof.
  destruct a as [x|], b as [y|]; simpl; split; try discriminate; auto.
  - intros H. apply negb_false_iff, String.eqb_eq in H. now subst.
  - intros [= ->]. now rewrite String.eqb_refl.
Qed.

(** Two units of one category convert by the ratio of their factors. *)
Lemma convert_unit_same_type value a b c :
  get_unit_type a = Some c -> get_unit_type b = Some c ->
  exists fa fb,
    factor (Some c) a = Return fa /\ factor (Some c) b = Return fb /\
    0 < fa /\ 0 < fb /\
    convert_unit value a b = Return (Some (value * fa / fb)).
Proof.
  intros Ha Hb.
  destruct (get_unit_type_factor _ _ Ha) as (fa & _ & Fa & Pa & _).
  destruct (get_unit_type_factor _ _ Hb) as (fb & _ & Fb & Pb & _).
  exists fa, fb. repeat split; auto.
  unfold convert_unit. rewrite Ha, Hb.
  replace (option_string_neqb (Some c) (Some c)) with false
    by (symmetry; now apply option_string_neqb_false).
  simpl orb. cbv iota. rewrite Fa. simpl bind. rewrite Fb. reflexivity.
Qed.

Lemma convert_unit_incompatible value a b :
  get_unit_type a <> get_unit_type b \/ get_unit_type a = None ->
  convert_unit value a b = Return None.
Proof.
  intros H. unfold convert_unit.
  destruct (option_string_neqb (get_unit_type a) (get_unit_type b)) eqn:E;
    [reflexivity|].
  apply option_string_neqb_false in E.
  destruct H as [H | H]; [contradiction|].
  rewrite H. reflexivity.
Qed.

(** [convert_unit] never raises. *)
Lemma convert_unit_total value a b :
  exists r, convert_unit value a b = Return r.
Proof.
  destruct (get_unit_type a) as [c|] eqn:Ha.
  - destruct (get_unit_type b) as [c'|] eqn:Hb.
    + destruct (string_dec c c') as [<- | Hne].
      * destruct (convert_unit_same_type value _ _ _ Ha Hb) as (fa & fb & _ & _ & _ & _ & H).
        eauto.
      * eexists. apply convert_unit_incompatible. left. congruence.
    + eexists. apply convert_unit_incompatible. left. congruence.
  - eexists. apply convert_unit_incompatible. now right.
Qed.

Lemma convert_unit_positive value a b c :
  0 < value -> convert_unit value a b = Return (Some c) -> 0 < c.
Proof.
  intros Hv H.
  destruct (get_unit_type a) as [ca|] eqn:Ha;
    [| rewrite convert_unit_incompatible in H by (now right); discriminate].
  destruct (get_unit_type b) as [cb|] eqn:Hb;
    [| rewrite convert_unit_incompatible in H by (left; congruence); discriminate].
  destruct (string_dec ca cb) as [<- | Hne];
    [| rewrite convert_unit_incompatible in H by (left; congruence); discriminate].
  destruct (convert_unit_same_type value _ _ _ Ha Hb) as (fa & fb & _ & _ & Pa & Pb & E).
  rewrite E in H. injection H as <-.
  apply Qlt_shift_div_l; [exact Pb|]. rewrite Qmult_0_l.
  apply Qmult_lt_0_compat; assumption.
Qed.

(** [C6] Round trip: for units [u] and [v] of one category and a positive
    [x], converting [x] from [u] to [v] and the result back from [v] to [u]
    succeeds both times and gives [x] again (as rationals). *)
Theorem convert_unit_round_trip (x : Q) (u v c : string) :
  get_unit_type u = Some c -> get_unit_type v = Some c -> 0 < x ->
  exists y z,
    convert_unit x u v = Return (Some y) /\
    convert_unit y v u = Return (Some z) /\
    z == x.
Proof.
  intros Hu Hv _.
  destruct (get_unit_type_factor _ _ Hu) as (fu & _ & Fu & Pu & _).
  destruct (get_unit_type_factor _ _ Hv) as (fv & _ & Fv & Pv & _).
  destruct (convert_unit_same_type x _ _ _ Hu Hv) as (fu' & fv' & Fu' & Fv' & _ & _ & E1).
  destruct (convert_unit_same_type (x * fu' / fv') _ _ _ Hv Hu)
    as (fv'' & fu'' & Fv'' & Fu'' & _ & _ & E2).
  assert (fu' = fu) by congruence. assert (fv' = fv) by congruence.
  assert (fu'' = fu) by congruence. assert (fv'' = fv) by congruence.
  subst. exists (x * fu / fv), (x * fu / fv * fv / fu).
  repeat split; auto.
  field. split; intros H; rewrite H in *; now apply Qlt_irrefl in Pu + now apply Qlt_irrefl in Pv.
Qed.

Lemma convert_unit_round_trip_witness :
  get_unit_type "lb" = Some "mass" /\ get_unit_type "oz" = Some "mass" /\
  0 < 3 /\
  exists y z,
    convert_unit 3 "lb" "oz" = Return (Some y) /\
    convert_unit y "oz" "lb" = Return (Some z) /\
    z == 3.
Proof.
  do 3 (split; [reflexivity|]).
  apply (convert_unit_round_trip 3 "lb" "oz" "mass"); reflexivity.
Defined.

(** [C7] [convert_unit] returns the [None] sentinel exactly when the two
    units resolve to different categories or one of them is unknown; in
    every other case both factors exist and the result is
    [value * factor(from_unit) / factor(to_unit)], not rounded. *)
Theorem convert_unit_sentinel_iff (value : Q) (from_unit to_unit : string) :
  (convert_unit value from_unit to_unit = Return None <->
     (get_unit_type from_unit <> get_unit_type to_unit \/
      get_unit_type from_unit = None \/ get_unit_type to_unit = None))
  /\
  (~ (get_unit_type from_unit <> get_unit_type to_unit \/
      get_unit_type from_unit = None \/ get_unit_type to_unit = None) ->
   exists c ff tf,
     get_unit_type from_unit = Some c /\ get_unit_type to_unit = Some c /\
     factor (Some c) from_unit = Return ff /\
     factor (Some c) to_unit = Return tf /\
     convert_unit value from_unit to_unit = Return (Some (value * ff / tf))).
Proof.
  assert (Known : forall c, get_unit_type from_unit = Some c ->
                            get_unit_type to_unit = Some c ->
            exists ff tf,
              factor (Some c) from_unit = Return ff /\
              factor (Some c) to_unit = Return tf /\
              convert_unit value from_unit to_unit = Return (Some (value * ff / tf))).
  { intros c Ha Hb.
    destruct (convert_unit_same_type value _ _ _ Ha Hb) as (fa & fb & ? & ? & _ & _ & ?).
    eauto. }
  destruct (get_unit_type from_unit) as [ca|] eqn:Ha.
  2:{ split.
      - split; [intros _; right; now left|].
        intros _. apply convert_unit_incompatible. right. exact Ha.
      - intros H. exfalso. apply H. right. now left. }
  destruct (get_unit_type to_unit) as [cb|] eqn:Hb.
  2:{ split.
      - split; [intros _; right; now right|].
        intros _. apply convert_unit_incompatible. left. rewrite Ha, Hb. discriminate.
      - intros H. exfalso. apply H. right. now right. }
  destruct (string_dec ca cb) as [<- | Hne].
  - destruct (Known ca eq_refl eq_refl) as (ff & tf & Ff & Ft & E).
    split.
    + rewrite E. split; [discriminate|].
      intros [H | [H | H]]; [now contradiction H | discriminate | discriminate].
    + intros _. exists ca, ff, tf. auto.
  - split.
    + split; [intros _; left; congruence|].
      intros _. apply convert_unit_incompatible. left. rewrite Ha, Hb. congruence.
    + intros H. exfalso. apply H. left. congruence.
Qed.

Lemma convert_unit_sentinel_iff_witness :
  convert_unit 2 "kg" "ml" = Return None /\
  exists c ff tf,
    get_unit_type "kg" = Some c /\ get_unit_type "g" = Some c /\
    factor (Some c) "kg" = Return ff /\ factor (Some c) "g" = Return tf /\
    convert_unit 2 "kg" "g" = Return (Some (2 * ff / tf)).
Proof.
  split.
  - apply (proj1 (convert_unit_sentinel_iff 2 "kg" "ml")).
    left. discriminate.
  - apply (proj2 (convert_unit_sentinel_iff 2 "kg" "g")).
    intros [H | [H | H]]; [now apply H | discriminate H | discriminate H].
Defined.

(** ** Auto-scaling *)

Section Sorting.
Implicit Types (x y : string * Q) (l : list (string * Q)).

Lemma insert_by_factor_In x l y :
  In y (insert_by_factor x l) <-> y = x \/ In y l.
Proof.
  induction l as [|z l IH]; simpl.
  - intuition congruence.
  - destruct (Qle_bool (snd x) (snd z)); simpl; [intuition congruence|].
    rewrite IH. intuition congruence.
Qed.

Lemma sorted_by_factor_In l y : In y (sorted_by_factor l) <-> In y l.
Proof.
  induction l as [|z l IH]; simpl; [tauto|].
  rewrite insert_by_factor_In, IH. intuition congruence.
Qed.

Lemma insert_by_factor_sorted x l :
  StronglySorted ascending l -> StronglySorted ascending (insert_by_factor x l).
Proof.
  induction 1 as [|z l Hl IH Hz]; simpl.
  - constructor; constructor.
  - destruct (Qle_bool (snd x) (snd z)) eqn:E.
    + apply Qle_bool_iff in E.
      constructor; [constructor; assumption|].
      constructor; [exact E|].
      eapply Forall_impl; [|exact Hz].
      intros a Ha. unfold ascending in *. eapply Qle_trans; eassumption.
    + constructor; [exact IH|].
      apply Forall_forall. intros a Ha.
      apply insert_by_factor_In in Ha. destruct Ha as [-> | Ha].
      * unfold ascending. apply Qlt_le_weak, Qnot_le_lt.
        intros H. apply Qle_bool_iff in H. congruence.
      * rewrite Forall_forall in Hz. auto.
Qed.

Lemma sorted_by_factor_sorted l : StronglySorted ascending (sorted_by_factor l).
Proof.
  induction l; simpl; [constructor | now apply insert_by_factor_sorted].
Qed.

Lemma rev_ascending l :
  StronglySorted ascending l -> StronglySorted descending (rev l).
Proof.
  induction 1 as [|z l Hl IH Hz]; simpl; [constructor|].
  assert (Hz' : Forall (fun a => descending a z) (rev l)).
  { apply Forall_forall. intros a Ha. apply in_rev in Ha.
    rewrite Forall_forall in Hz. exact (Hz a Ha). }
  clear Hz Hl. induction IH as [|a m Hm IHm Ha]; simpl.
  - constructor; constructor.
  - inversion Hz' as [|? ? Haz Hmz]; subst.
    constructor; [auto|].
    apply Forall_app. split; [exact Ha | constructor; [exact Haz | constructor]].
Qed.

(** On a list in descending order the scan stops at the largest factor
    that does not exceed the quantity. *)
Lemma first_fitting_descending q l :
  StronglySorted descending l ->
  match first_fitting q l with
  | Some (r, w) =>
      exists f, In (w, f) l /\ f <= q /\ r = round2 (q / f) /\
                forall w' f', In (w', f') l -> f' <= q -> f' <= f
  | None => forall w f, In (w, f) l -> q < f
  end.
Proof.
  induction 1 as [|[w f] l Hl IH Hz]; simpl; [tauto|].
  destruct (Qle_bool f q) eqn:E.
  - apply Qle_bool_iff in E. exists f. repeat split; auto.
    intros w' f' [[= -> ->] | Hin] _; [apply Qle_refl|].
    rewrite Forall_forall in Hz. exact (Hz _ Hin).
  - assert (Hlt : q < f).
    { apply Qnot_le_lt. intros H. apply Qle_bool_iff in H. congruence. }
    destruct (first_fitting q l) as [[r w0]|].
    + destruct IH as (f0 & Hin & Hle & Hr & Hmax).
      exists f0. repeat split; auto.
      intros w' f' [[= -> ->] | Hin'] Hf'; [|eauto].
      exfalso. exact (Qlt_irrefl _ (Qlt_le_trans _ _ _ Hlt Hf')).
    + intros w' f' [[= -> ->] | Hin']; eauto.
Qed.
End Sorting.

(** [X7] What [auto_convert] computes: the given quantity [q] itself is compared
    with the factors, whatever unit it is expressed in.  With [units] the
    table of the unit's category, the result is [q] divided by the largest
    factor not above [q], rounded, with that factor's unit; the pair is
    returned as it is when every factor is above [q]. *)
Lemma auto_convert_largest_fitting (q : Q) (u c : string) (units : dict Q) :
  get_unit_type u = Some c -> units_of (Some c) = Return units ->
  ((exists w f, In (w, f) units /\ f <= q) ->
   exists w f, In (w, f) units /\ f <= q /\
               (forall w' f', In (w', f') units -> f' <= q -> f' <= f) /\
               auto_convert q u = Return (round2 (q / f), w))
  /\
  ((forall w f, In (w, f) units -> q < f) -> auto_convert q u = Return (q, u)).
Proof.
  intros Hu Hunits.
  destruct (get_unit_type_factor _ _ Hu) as (_ & _ & _ & _ & _ & Hc).
  unfold auto_convert. rewrite Hu. simpl truthy.
  apply String.eqb_neq in Hc. rewrite Hc. simpl negb. cbv iota.
  rewrite Hunits. simpl bind.
  pose proof (first_fitting_descending q _
                (rev_ascending _ (sorted_by_factor_sorted units))) as H.
  destruct (first_fitting q (rev (sorted_by_factor units))) as [[r w]|].
  - destruct H as (f & Hin & Hle & -> & Hmax).
    rewrite <- in_rev, sorted_by_factor_In in Hin.
    split.
    + intros _. exists w, f. repeat split; auto.
      intros w' f' Hin' Hq. apply (Hmax w'); [|exact Hq].
      rewrite <- in_rev. now apply sorted_by_factor_In.
    + intros Hall. exfalso.
      exact (Qlt_irrefl _ (Qlt_le_trans _ _ _ (Hall _ _ Hin) Hle)).
  - split; [|reflexivity].
    intros (w & f & Hin & Hle). exfalso.
    assert (Hin' : In (w, f) (rev (sorted_by_factor units))).
    { rewrite <- in_rev. now apply sorted_by_factor_In. }
    exact (Qlt_irrefl _ (Qlt_le_trans _ _ _ (H _ _ Hin') Hle)).
Qed.

Lemma auto_convert_unknown (q : Q) (u : string) :
  get_unit_type u = None -> auto_convert q u = Return (q, u).
Proof. intros H. unfold auto_convert. now rewrite H. Qed.

(** [auto_convert] never raises. *)
Lemma auto_convert_total (q : Q) (u : string) : exists r, auto_convert q u = Return r.
Proof.
  destruct (get_unit_type u) as [c|] eqn:Hu.
  - destruct (get_unit_type_factor _ _ Hu) as (_ & units & _ & _ & Hunits & Hc).
    unfold auto_convert. rewrite Hu. simpl truthy.
    apply String.eqb_neq in Hc. rewrite Hc. simpl negb. cbv iota.
    rewrite Hunits. simpl bind.
    destruct (first_fitting q (rev (sorted_by_factor units))); eauto.
  - rewrite auto_convert_unknown by assumption. eauto.
Qed.

(** [C1] The scan compares the quantity as given, not its value in the
    base unit: for 2 kg the source answers 2 g (the display reads
    "2 kg ~ 2.00 g"), where the specified auto-scaling, which compares the
    base value 2000, answers 2 kg. *)
Theorem auto_convert_ignores_input_unit :
  (exists r, auto_convert 2 "kg" = Return (r, "g") /\ r == 2) /\
  (exists r, auto_scale_spec 2 "kg" = (r, "kg") /\ r == 2).
Proof.
  split; eexists; (split; [vm_compute; reflexivity | reflexivity]).
Qed.

(** [C2], second half as stated, fails: for 500 g the scan does not leave
    the pair unchanged, the unit returned is not "g". *)
Lemma auto_convert_500_g_not_unchanged :
  ~ ((exists r, auto_convert 1500 "g" = Return (r, "kg") /\ r == 1.5) /\
     (exists r, auto_convert 500 "g" = Return (r, "g") /\ r == 500)).
Proof.
  intros (_ & r & H & _). vm_compute in H. discriminate H.
Qed.

(** [C2] amended: [auto_convert 1500 "g"] is 1.5 kg, and
    [auto_convert 500 "g"] is 1.1 lb, the pound (453.592 g) being the
    largest mass unit whose factor does not exceed 500. *)
Theorem auto_convert_examples :
  (exists r, auto_convert 1500 "g" = Return (r, "kg") /\ r == 1.5) /\
  (exists r, auto_convert 500 "g" = Return (r, "lb") /\ r == 1.1).
Proof.
  split; eexists; (split; [vm_compute; reflexivity | reflexivity]).
Qed.

(** [C9] [auto_convert] can scale downward: 0.5 g is answered as 500 mg,
    and the factor of "mg" is strictly below the factor of "g". *)
Theorem auto_convert_scales_down :
  (exists r, auto_convert 0.5 "g" = Return (r, "mg") /\ r == 500) /\
  (exists fg fmg,
      factor (get_unit_type "g") "g" = Return fg /\
      factor (get_unit_type "g") "mg" = Return fmg /\
      fmg < fg).
Proof.
  split.
  - eexists. split; [vm_compute; reflexivity | reflexivity].
  - do 2 eexists. split; [reflexivity|]. split; reflexivity.
Qed.

(** ** Inventory operations *)

Lemma Qle_bool_false (a b : Q) : Qle_bool a b = false <-> b < a.
Proof.
  split; intros H.
  - apply Qnot_le_lt. intros Hle. apply Qle_bool_iff in Hle. congruence.
  - destruct (Qle_bool a b) eqn:E; [|reflexivity].
    apply Qle_bool_iff in E. exfalso. exact (Qlt_irrefl _ (Qlt_le_trans _ _ _ H E)).
Qed.

Lemma Qeq_bool_false_pos (a : Q) : 0 < a -> Qeq_bool a 0 = false.
Proof.
  intros H. destruct (Qeq_bool a 0) eqn:E; [|reflexivity].
  apply Qeq_bool_iff in E. rewrite E in H. now apply Qlt_irrefl in H.
Qed.

(** The quantity handed to the operations is always positive. *)
Lemma get_validated_positive_float_positive (answers : list (option Q)) (value : Q) :
  get_validated_positive_float answers = Some value -> 0 < value.
Proof.
  induction answers as [|[a|] answers IH]; simpl; [discriminate| |exact IH].
  destruct (Qle_bool a 0) eqn:E; simpl; [exact IH|].
  intros [= <-]. now apply Qle_bool_false.
Qed.

(** The defensive checks on the input: an empty name or a unit outside the
    catalog is refused before the inventory is looked at or changed. *)
Lemma add_ingredient_rejects (inv : inventory) (name u : string) (q : Q) :
  (name = EmptyString -> add_ingredient inv name u q = Return (EmptyName, inv)) /\
  (name <> EmptyString -> known_unit u = false ->
   add_ingredient inv name u q = Return (UnknownUnit, inv)).
Proof.
  unfold add_ingredient. split.
  - intros ->. reflexivity.
  - intros Hname Hu. apply String.eqb_neq in Hname. now rewrite Hname, Hu.
Qed.

Lemma consume_ingredient_unknown_unit
  (inv : inventory) (name u : string) (q : Q) (e : stock) :
  dict_get inv name = Some e -> known_unit u = false ->
  consume_ingredient inv name u q = Return (UnknownUnit, inv).
Proof.
  intros He Hu. unfold consume_ingredient. now rewrite He, Hu.
Qed.





(** [C4] [add_ingredient] called with a non-empty name, a unit of the
    catalog and a positive quantity.  On an entry with a positive quantity:
    a unit of the entry's category adds the quantity, converted into the
    entry's unit, and keeps that unit; a unit of another category is answered
    [IncompatibleUnits] and the inventory is the same.  On an absent name a
    new entry holds exactly the quantity and unit given.  Adding 500 g,
    300 g and 1 kg of flour gives 1800 in unit "g". *)
Theorem add_ingredient_spec (inv : inventory) (name u : string) (q : Q) :
  0 < q -> name <> EmptyString -> known_unit u = true ->
  (forall e,
      dict_get inv name = Some e -> 0 < quantity e ->
      (forall cu,
          get_unit_type u = Some cu -> get_unit_type (unit e) = Some cu ->
          exists c,
            convert_unit q u (unit e) = Return (Some c) /\
            let inv' := dict_set inv name (Stock (quantity e + c) (unit e)) in
            add_ingredient inv name u q = Return (Added, inv') /\
            dict_get inv' name = Some (Stock (quantity e + c) (unit e)))
      /\
      (get_unit_type u <> get_unit_type (unit e) ->
       add_ingredient inv name u q = Return (IncompatibleUnits, inv)))
  /\
  (dict_get inv name = None ->
   let inv' := dict_set inv name (Stock q u) in
   add_ingredient inv name u q = Return (Created, inv') /\
   dict_get inv' name = Some (Stock q u))
  /\
  (exists r,
      run [] [OpAdd "flour" "g" 500; OpAdd "flour" "g" 300; OpAdd "flour" "kg" 1]
      = Return [("flour", Stock r "g")] /\ r == 1800).
Proof.
  intros _ Hname Hu. apply String.eqb_neq in Hname.
  unfold add_ingredient. rewrite Hname, Hu. simpl negb. cbv iota.
  split; [|split].
  - intros e -> Hpos. rewrite (Qeq_bool_false_pos _ Hpos). split.
    + intros cu Hcu Hce.
      destruct (convert_unit_same_type q _ _ _ Hcu Hce)
        as (fa & fb & _ & _ & _ & _ & E).
      exists (q * fa / fb). rewrite E. simpl.
      split; [reflexivity|]. split; [reflexivity | apply dict_get_set_same].
    + intros Hne. now rewrite convert_unit_incompatible by (now left).
  - intros ->. simpl. split; [reflexivity | apply dict_get_set_same].
  - eexists. split; [vm_compute; reflexivity | reflexivity].
Qed.

Lemma add_ingredient_spec_witness :
  0 < 1 /\ "flour" <> EmptyString /\ known_unit "kg" = true /\
  exists c,
    convert_unit 1 "kg" "g" = Return (Some c) /\
    add_ingredient [("flour", Stock 800 "g")] "flour" "kg" 1
    = Return (Added, [("flour", Stock (800 + c) "g")]).
Proof.
  split; [reflexivity|]. split; [discriminate|]. split; [reflexivity|].
  destruct (add_ingredient_spec [("flour", Stock 800 "g")] "flour" "kg" 1
              eq_refl ltac:(discriminate) eq_refl) as (H & _ & _).
  destruct (H (Stock 800 "g") eq_refl eq_refl) as (Hsame & _).
  destruct (Hsame "mass" eq_refl eq_refl) as (c & Hc & Hadd & _).
  exists c. split; [exact Hc | exact Hadd].
Defined.

(** [C5] On an entry whose quantity is exactly 0, [add_ingredient] (same
    preconditions) replaces the entry by the unit and the quantity given,
    whatever the previous unit was and without any conversion.  After
    flour is consumed down to 0 g, adding 2 lb gives quantity 2 in "lb". *)
Theorem add_ingredient_rebases
  (inv : inventory) (name u : string) (q : Q) (e : stock) :
  0 < q -> name <> EmptyString -> known_unit u = true ->
  dict_get inv name = Some e -> quantity e == 0 ->
  let inv' := dict_set inv name (Stock q u) in
  add_ingredient inv name u q = Return (Updated, inv') /\
  dict_get inv' name = Some (Stock q u) /\
  run [] [OpAdd "flour" "g" 500; OpAdd "flour" "g" 300;
          OpConsume "flour" "g" 800; OpAdd "flour" "lb" 2]
  = Return [("flour", Stock 2 "lb")].
Proof.
  intros _ Hname Hu He Hzero. apply String.eqb_neq in Hname.
  apply Qeq_bool_iff in Hzero.
  unfold add_ingredient. rewrite Hname, Hu, He. simpl. rewrite Hzero.
  split; [reflexivity|]. split; [apply dict_get_set_same|].
  vm_compute. reflexivity.
Qed.

Lemma add_ingredient_rebases_witness :
  0 < 2 /\ "flour" <> EmptyString /\ known_unit "tsp" = true /\
  dict_get [("flour", Stock 0 "g")] "flour" = Some (Stock 0 "g") /\
  quantity (Stock 0 "g") == 0 /\
  add_ingredient [("flour", Stock 0 "g")] "flour" "tsp" 2
  = Return (Updated, [("flour", Stock 2 "tsp")]).
Proof.
  split; [reflexivity|]. split; [discriminate|].
  do 3 (split; [reflexivity|]).
  apply (add_ingredient_rebases [("flour", Stock 0 "g")] "flour" "tsp" 2
           (Stock 0 "g") eq_refl ltac:(discriminate) eq_refl eq_refl eq_refl).
Defined.

(** ** The invariant of the inventory *)

Lemma known_unit_catalog (u : string) : known_unit u = true -> catalog_unit u.
Proof.
  intros H. destruct (known_unit_type _ H) as (c & Hc).
  exact (get_unit_type_catalog _ _ Hc).
Qed.

Lemma add_ingredient_ok (inv : inventory) (name u : string) (q : Q) :
  0 < q -> inventory_ok inv ->
  exists r inv', add_ingredient inv name u q = Return (r, inv') /\ inventory_ok inv'.
Proof.
  intros Hq Hinv. unfold add_ingredient.
  destruct (String.eqb name EmptyString); [eauto|].
  destruct (known_unit u) eqn:Hu; simpl negb; cbv iota; [|eauto].
  assert (Hnew : stock_ok (Stock q u)).
  { split; [apply Qlt_le_weak, Hq | apply known_unit_catalog, Hu]. }
  destruct (dict_get inv name) as [e|] eqn:He.
  - destruct (dict_get_Forall stock_ok _ _ _ Hinv He) as (Hpos & Hcat).
    destruct (Qeq_bool (quantity e) 0).
    + do 2 eexists. split; [reflexivity|]. now apply dict_set_Forall.
    + destruct (convert_unit_total q u (unit e)) as ([c|] & E); rewrite E; simpl.
      * do 2 eexists. split; [reflexivity|].
        apply dict_set_Forall; [exact Hinv|]. split; [|exact Hcat]. simpl.
        pose proof (convert_unit_positive _ _ _ _ Hq E) as Hc.
        apply Qlt_le_weak in Hc.
        rewrite <- (Qplus_0_l 0). now apply Qplus_le_compat.
      * eauto.
  - do 2 eexists. split; [reflexivity|]. now apply dict_set_Forall.
Qed.

Lemma consume_ingredient_ok (inv : inventory) (name u : string) (q : Q) :
  inventory_ok inv ->
  exists r inv',
    consume_ingredient inv name u q = Return (r, inv') /\ inventory_ok inv'.
Proof.
  intros Hinv. unfold consume_ingredient.
  destruct (dict_get inv name) as [e|] eqn:He; [|eauto].
  destruct (dict_get_Forall stock_ok _ _ _ Hinv He) as (Hpos & Hcat).
  destruct (known_unit u); simpl negb; cbv iota; [|eauto].
  destruct (convert_unit_total q u (unit e)) as ([c|] & E); rewrite E; simpl;
    [|eauto].
  destruct (Qle_bool c (quantity e)) eqn:Hle; simpl; [|eauto].
  do 2 eexists. split; [reflexivity|].
  apply dict_set_Forall; [exact Hinv|]. split; [|exact Hcat]. simpl.
  apply Qle_bool_iff in Hle.
  apply (Qplus_le_l _ _ c). ring_simplify. exact Hle.
Qed.

Lemma show_entry_total (name : string) (data : stock) :
  exists s, show_entry name data = Return s.
Proof.
  unfold show_entry.
  destruct (auto_convert_total (quantity data) (unit data)) as ([r w] & E).
  rewrite E. simpl. eauto.
Qed.

Lemma show_entries_total (items : list (string * stock)) :
  exists ss, show_entries items = Return ss.
Proof.
  induction items as [|[name data] items (ss & IH)]; simpl; [eauto|].
  destruct (show_entry_total name data) as (s & E).
  rewrite E, IH. simpl. eauto.
Qed.

Lemma view_inventory_total (inv : inventory) :
  exists r, view_inventory inv = Return r.
Proof.
  unfold view_inventory.
  destruct (_ || _); [eauto|].
  destruct (show_entries_total inv) as (ss & E). rewrite E. simpl. eauto.
Qed.

Lemma search_ingredient_total (inv : inventory) (answers : list (string * bool)) :
  exists r, search_ingredient inv answers = Return r.
Proof.
  induction answers as [|[name again] answers IH]; simpl; [eauto|].
  destruct (dict_get inv name) as [data|].
  - destruct (show_entry_total name data) as (s & E). rewrite E. simpl. eauto.
  - destruct again; eauto.
Qed.

Lemma step_ok (inv : inventory) (o : op) :
  positive_quantity o -> inventory_ok inv ->
  exists inv', step inv o = Return inv' /\ inventory_ok inv'.
Proof.
  intros Hq Hinv. destruct o as [name u q| |name u q|answers]; simpl in *.
  - destruct (add_ingredient_ok inv name u q Hq Hinv) as (r & inv' & E & Hok).
    rewrite E. simpl. eauto.
  - destruct (view_inventory_total inv) as (r & E). rewrite E. simpl. eauto.
  - destruct (consume_ingredient_ok inv name u q Hinv) as (r & inv' & E & Hok).
    rewrite E. simpl. eauto.
  - destruct (search_ingredient_total inv answers) as (r & E).
    rewrite E. simpl. eauto.
Qed.

Lemma run_ok (ops : list op) (inv : inventory) :
  Forall positive_quantity ops -> inventory_ok inv ->
  exists inv', run inv ops = Return inv' /\ inventory_ok inv'.
Proof.
  intros Hops. revert inv.
  induction Hops as [|o ops Ho _ IH]; intros inv Hinv; simpl; [eauto|].
  destruct (step_ok inv o Ho Hinv) as (inv1 & E & Hok1).
  rewrite E. simpl. exact (IH inv1 Hok1).
Qed.




(** * Further properties of the source *)

(** ** Validation and category lookup *)

(** [X1] The validation [unit in get_all_units()] of the two operations and
    [get_unit_type] agree: a unit passes the validation exactly when it has
    a category. *)
Theorem known_unit_iff_unit_type (u : string) :
  known_unit u = true <-> exists c, get_unit_type u = Some c.
Proof.
  split.
  - apply known_unit_type.
  - intros (c & Hc). exact (get_unit_type_known _ _ Hc).
Qed.

Lemma member_unit_type (u c : string) (units : dict Q) :
  dict_get CONVERSION_FACTORS c = Some units -> dict_mem units u = true ->
  get_unit_type u = Some c.
Proof.
  intros Hc Hu. revert Hc.
  unfold CONVERSION_FACTORS, dict_get.
  repeat (destruct (String.eqb c _) eqn:E;
          [ apply String.eqb_eq in E; subst c; intros [= <-];
            revert Hu; unfold dict_mem, dict_get;
            repeat (destruct (String.eqb u _) eqn:E;
                    [ apply String.eqb_eq in E; subst u; reflexivity | clear E ]);
            discriminate
          | clear E ]).
  discriminate.
Qed.

(** [X2] [get_unit_type] answers [c] exactly for the keys of the table of
    category [c]: no unit is listed under two categories, so the first
    category found is the only one. *)
Theorem get_unit_type_iff_member (u c : string) :
  get_unit_type u = Some c <->
  exists units, dict_get CONVERSION_FACTORS c = Some units /\ dict_mem units u = true.
Proof.
  split.
  - intros H. apply get_unit_type_pairs in H. simpl in H.
    repeat (destruct H as [[= <- <-] | H]; [eexists; split; reflexivity|]).
    contradiction.
  - intros (units & Hc & Hu). exact (member_unit_type _ _ _ Hc Hu).
Qed.

(** ** Algebra of [convert_unit] *)

Ltac factor_nonzero :=
  repeat split;
  match goal with
  | P : 0 < ?f |- ~ ?f == 0 => intros Hz; rewrite Hz in P; exact (Qlt_irrefl _ P)
  end.

(** [X3] Converting between a unit of the catalog and itself succeeds and
    gives the value back. *)
Theorem convert_unit_same_unit (x : Q) (u c : string) :
  get_unit_type u = Some c ->
  exists y, convert_unit x u u = Return (Some y) /\ y == x.
Proof.
  intros Hu.
  destruct (convert_unit_same_type x _ _ _ Hu Hu) as (f & f' & F & F' & P & _ & E).
  assert (f' = f) by congruence. subst f'.
  exists (x * f / f). split; [exact E|]. field. factor_nonzero.
Qed.

Lemma convert_unit_same_unit_witness :
  get_unit_type "tbsp" = Some "volume" /\
  exists y, convert_unit 7 "tbsp" "tbsp" = Return (Some y) /\ y == 7.
Proof.
  split; [reflexivity|].
  exact (convert_unit_same_unit 7 "tbsp" "volume" eq_refl).
Defined.







(** ** What [auto_convert] returns *)

Lemma In_dict_mem {V : Type} (d : dict V) (k : string) (v : V) :
  In (k, v) d -> dict_mem d k = true.
Proof.
  unfold dict_mem. induction d as [|[k' v'] d IH]; simpl; [contradiction|].
  intros [[= -> ->] | Hin]; [now rewrite String.eqb_refl|].
  destruct (String.eqb k k'); [reflexivity | now apply IH].
Qed.

Lemma catalog_factor_positive (c w : string) (units : dict Q) (f : Q) :
  units_of (Some c) = Return units -> In (w, f) units -> 0 < f.
Proof.
  unfold units_of, dict_index, CONVERSION_FACTORS, dict_get.
  repeat (destruct (String.eqb c _);
          [ intros [= <-]; simpl;
            intros Hin;
            repeat (destruct Hin as [[= <- <-] | Hin]; [reflexivity|]);
            contradiction
          | ]).
  discriminate.
Qed.

Lemma units_of_dict_get (c : string) (units : dict Q) :
  units_of (Some c) = Return units -> dict_get CONVERSION_FACTORS c = Some units.
Proof.
  unfold units_of, dict_index.
  destruct (dict_get CONVERSION_FACTORS c); [intros [= ->]; reflexivity | discriminate].
Qed.

Lemma first_fitting_In (q r : Q) (w : string) (l : list (string * Q)) :
  first_fitting q l = Some (r, w) ->
  exists f, In (w, f) l /\ f <= q /\ r = round2 (q / f).
Proof.
  induction l as [|[w' f'] l IH]; simpl; [discriminate|].
  destruct (Qle_bool f' q) eqn:E.
  - intros [= <- <-]. apply Qle_bool_iff in E. eauto.
  - intros H. destruct (IH H) as (f & Hin & Hle & Hr). eauto.
Qed.

(** How the answers of [auto_convert] arise: either the pair given, or a
    unit of the category's table with a factor not above the quantity. *)
Lemma auto_convert_cases (q r : Q) (u w : string) :
  auto_convert q u = Return (r, w) ->
  (r = q /\ w = u) \/
  (exists c units f,
      get_unit_type u = Some c /\ units_of (Some c) = Return units /\
      In (w, f) units /\ 0 < f /\ f <= q /\ r = round2 (q / f)).
Proof.
  unfold auto_convert.
  destruct (get_unit_type u) as [c|] eqn:Hu; simpl truthy.
  2:{ simpl. intros [= <- <-]. now left. }
  destruct (negb (negb _)); [intros [= <- <-]; now left|].
  destruct (units_of (Some c)) as [units|] eqn:Hunits; simpl bind; [|discriminate].
  destruct (first_fitting q (rev (sorted_by_factor units))) as [[r' w']|] eqn:F.
  - intros [= -> ->]. right.
    destruct (first_fitting_In _ _ _ _ F) as (f & Hin & Hle & Hr).
    rewrite <- in_rev, sorted_by_factor_In in Hin.
    exists c, units, f. repeat split; auto.
    exact (catalog_factor_positive _ _ _ _ Hunits Hin).
  - intros [= <- <-]. now left.
Qed.

Lemma round_half_even_floor (x : Q) : (Qfloor x <= round_half_even x)%Z.
Proof.
  unfold round_half_even.
  destruct (Qcompare _ _); [destruct (Z.even _)| |];
    auto using Z.le_refl, Z.le_succ_diag_r.
Qed.

Lemma round2_ge_1 (x : Q) : 1 <= x -> 1 <= round2 x.
Proof.
  intros H. unfold round2.
  apply Qle_shift_div_l; [reflexivity|].
  change (1 * 100) with (inject_Z 100). rewrite <- Zle_Qle.
  eapply Z.le_trans; [|apply round_half_even_floor].
  change 100%Z with (Qfloor (inject_Z 100)) at 1.
  apply Qfloor_resp_le.
  change (inject_Z 100) with (1 * 100).
  apply Qmult_le_compat_r; [exact H | discriminate].
Qed.

Lemma auto_convert_largest_fitting_witness :
  get_unit_type "oz" = Some "mass" /\
  units_of (Some "mass")
  = Return [("mg", 0.001); ("g", 1); ("kg", 1000); ("oz", 28.3495); ("lb", 453.592)] /\
  ((exists w f,
       In (w, f) [("mg", 0.001); ("g", 1); ("kg", 1000); ("oz", 28.3495); ("lb", 453.592)]
       /\ f <= 30) ->
   exists w f,
     In (w, f) [("mg", 0.001); ("g", 1); ("kg", 1000); ("oz", 28.3495); ("lb", 453.592)]
     /\ f <= 30 /\
     (forall w' f',
         In (w', f') [("mg", 0.001); ("g", 1); ("kg", 1000); ("oz", 28.3495); ("lb", 453.592)]
         -> f' <= 30 -> f' <= f) /\
     auto_convert 30 "oz" = Return (round2 (30 / f), w)).
Proof.
  do 2 (split; [reflexivity|]).
  exact (proj1 (auto_convert_largest_fitting 30 "oz" "mass" _ eq_refl eq_refl)).
Defined.

(** [X8] [auto_convert] never leaves the category: the unit it answers has
    the same category as the unit given (none, when that one is unknown). *)
Theorem auto_convert_same_category (q r : Q) (u w : string) :
  auto_convert q u = Return (r, w) -> get_unit_type w = get_unit_type u.
Proof.
  intros H. destruct (auto_convert_cases _ _ _ _ H) as [(_ & ->) | Hscan];
    [reflexivity|].
  destruct Hscan as (c & units & f & Hu & Hunits & Hin & _).
  rewrite Hu. apply member_unit_type with (units := units).
  - exact (units_of_dict_get _ _ Hunits).
  - exact (In_dict_mem _ _ _ Hin).
Qed.

Lemma auto_convert_same_category_witness :
  auto_convert 2500 "tsp" = Return (2.50, "l") /\
  get_unit_type "l" = get_unit_type "tsp".
Proof.
  assert (H : auto_convert 2500 "tsp" = Return (2.50, "l")) by (vm_compute; reflexivity).
  split; [exact H|].
  exact (auto_convert_same_category 2500 2.50 "tsp" "l" H).
Defined.

(** [X9] When [auto_convert] answers another pair than the one given, the
    quantity it answers is at least 1: the unit chosen holds at least once
    in the quantity compared. *)
Theorem auto_convert_at_least_one (q r : Q) (u w : string) :
  auto_convert q u = Return (r, w) -> (r = q /\ w = u) \/ 1 <= r.
Proof.
  intros H. destruct (auto_convert_cases _ _ _ _ H) as [Hsame | Hscan];
    [now left | right].
  destruct Hscan as (c & units & f & _ & _ & _ & Hpos & Hle & ->).
  apply round2_ge_1. apply Qle_shift_div_l; [exact Hpos|].
  now rewrite Qmult_1_l.
Qed.

Lemma auto_convert_at_least_one_witness :
  auto_convert 30 "oz" = Return (round2 (30 / 28.3495), "oz") /\
  ((round2 (30 / 28.3495) = 30 /\ "oz" = "oz") \/ 1 <= round2 (30 / 28.3495)).
Proof.
  assert (H : auto_convert 30 "oz" = Return (round2 (30 / 28.3495), "oz"))
    by reflexivity.
  split; [exact H|].
  exact (auto_convert_at_least_one 30 _ "oz" "oz" H).
Defined.

(** ** Names and entries of the inventory *)

Lemma dict_get_None_keys {V : Type} (d : dict V) (k : string) :
  dict_get d k = None <-> ~ In k (dict_keys d).
Proof.
  induction d as [|[k' v'] d IH]; simpl; [tauto|].
  destruct (String.eqb k k') eqn:E.
  - apply String.eqb_eq in E. subst. split; [discriminate | tauto].
  - apply String.eqb_neq in E. rewrite IH. intuition congruence.
Qed.

(** The keys after [d[k] = v]. *)
Lemma dict_keys_set {V : Type} (d : dict V) (k : string) (v : V) :
  (exists e, dict_get d k = Some e /\ dict_keys (dict_set d k v) = dict_keys d) \/
  (dict_get d k = None /\ dict_keys (dict_set d k v) = (dict_keys d ++ [k])%list).
Proof.
  destruct (dict_get d k) as [e|] eqn:E.
  - left. exists e. split; [reflexivity|]. exact (dict_keys_set_present _ d k v e E).
  - right. split; [reflexivity|].
    rewrite (dict_set_absent _ d k v E). unfold dict_keys. now rewrite map_app.
Qed.

Lemma add_ingredient_keys (inv inv' : inventory) (name u : string) (q : Q) (r : reply) :
  add_ingredient inv name u q = Return (r, inv') ->
  dict_keys inv' = dict_keys inv \/
  (name <> EmptyString /\ dict_get inv name = None /\
   dict_keys inv' = (dict_keys inv ++ [name])%list).
Proof.
  unfold add_ingredient.
  destruct (String.eqb name EmptyString) eqn:Hname; [intros [= <- <-]; now left|].
  apply String.eqb_neq in Hname.
  destruct (negb (known_unit u)); [intros [= <- <-]; now left|].
  destruct (dict_get inv name) as [e|] eqn:He.
  - destruct (Qeq_bool (quantity e) 0).
    + intros [= <- <-]. left. exact (dict_keys_set_present _ inv name _ e He).
    + destruct (convert_unit q u (unit e)) as [[c|]|]; simpl; try discriminate;
        intros [= <- <-]; left; [|reflexivity].
      exact (dict_keys_set_present _ inv name _ e He).
  - intros [= <- <-]. right. repeat split; auto.
    rewrite (dict_set_absent _ inv name _ He). unfold dict_keys. now rewrite map_app.
Qed.

Lemma consume_ingredient_keys
  (inv inv' : inventory) (name u : string) (q : Q) (r : reply) :
  consume_ingredient inv name u q = Return (r, inv') ->
  dict_keys inv' = dict_keys inv.
Proof.
  unfold consume_ingredient.
  destruct (dict_get inv name) as [e|] eqn:He; [|intros [= <- <-]; reflexivity].
  destruct (negb (known_unit u)); [intros [= <- <-]; reflexivity|].
  destruct (convert_unit q u (unit e)) as [[c|]|]; simpl; try discriminate;
    [|intros [= <- <-]; reflexivity].
  destruct (negb (Qle_bool c (quantity e))); intros [= <- <-]; [reflexivity|].
  exact (dict_keys_set_present _ inv name _ e He).
Qed.

Lemma step_keys (inv inv' : inventory) (o : op) :
  step inv o = Return inv' ->
  dict_keys inv' = dict_keys inv \/
  (exists name, name <> EmptyString /\ dict_get inv name = None /\
                dict_keys inv' = (dict_keys inv ++ [name])%list).
Proof.
  destruct o as [name u q| |name u q|answers]; simpl.
  - destruct (add_ingredient inv name u q) as [[r inv1]|] eqn:E; simpl;
      [|discriminate].
    intros [= <-]. destruct (add_ingredient_keys _ _ _ _ _ _ E) as [H | H]; eauto.
  - destruct (view_inventory inv); simpl; [intros [= <-]; now left | discriminate].
  - destruct (consume_ingredient inv name u q) as [[r inv1]|] eqn:E; simpl;
      [|discriminate].
    intros [= <-]. left. exact (consume_ingredient_keys _ _ _ _ _ _ E).
  - destruct (search_ingredient inv answers); simpl;
      [intros [= <-]; now left | discriminate].
Qed.

(** [X10] No sequence of operations removes, renames or reorders an entry:
    after a run the names of the inventory are the names it had before, in
    the same order, followed by the names added since. *)
Theorem run_keeps_names (ops : list op) (inv inv' : inventory) :
  run inv ops = Return inv' ->
  exists added, dict_keys inv' = (dict_keys inv ++ added)%list.
Proof.
  revert inv. induction ops as [|o ops IH]; simpl; intros inv.
  - intros [= <-]. exists []. now rewrite app_nil_r.
  - destruct (step inv o) as [inv1|] eqn:E; simpl; [|discriminate].
    intros H. destruct (IH _ H) as (added & Hadded).
    destruct (step_keys _ _ _ E) as [Hk | (name & _ & _ & Hk)];
      rewrite Hk in Hadded.
    + eauto.
    + rewrite <- app_assoc in Hadded. eauto.
Qed.

Lemma run_keeps_names_witness :
  run [("flour", Stock 0 "g")]
      [OpAdd "salt" "g" 5; OpConsume "salt" "g" 5; OpAdd "flour" "lb" 2]
  = Return [("flour", Stock 2 "lb"); ("salt", Stock (5 - 5 * 1 / 1) "g")] /\
  exists added,
    dict_keys [("flour", Stock 2 "lb"); ("salt", Stock (5 - 5 * 1 / 1) "g")]
    = (dict_keys [("flour", Stock 0 "g")] ++ added)%list.
Proof.
  assert (H : run [("flour", Stock 0 "g")]
                [OpAdd "salt" "g" 5; OpConsume "salt" "g" 5; OpAdd "flour" "lb" 2]
              = Return [("flour", Stock 2 "lb"); ("salt", Stock (5 - 5 * 1 / 1) "g")])
    by reflexivity.
  split; [exact H|].
  exact (run_keeps_names _ _ _ H).
Defined.

Lemma add_ingredient_frame
  (inv inv' : inventory) (name u k : string) (q : Q) (r : reply) :
  k <> name -> add_ingredient inv name u q = Return (r, inv') ->
  dict_get inv' k = dict_get inv k.
Proof.
  intros Hk. unfold add_ingredient.
  destruct (String.eqb name EmptyString); [intros [= <- <-]; reflexivity|].
  destruct (negb (known_unit u)); [intros [= <- <-]; reflexivity|].
  destruct (dict_get inv name) as [e|].
  - destruct (Qeq_bool (quantity e) 0).
    + intros [= <- <-]. now apply dict_get_set_other.
    + destruct (convert_unit q u (unit e)) as [[c|]|]; simpl; try discriminate;
        intros [= <- <-]; [now apply dict_get_set_other | reflexivity].
  - intros [= <- <-]. now apply dict_get_set_other.
Qed.

Lemma consume_ingredient_frame
  (inv inv' : inventory) (name u k : string) (q : Q) (r : reply) :
  k <> name -> consume_ingredient inv name u q = Return (r, inv') ->
  dict_get inv' k = dict_get inv k.
Proof.
  intros Hk. unfold consume_ingredient.
  destruct (dict_get inv name) as [e|]; [|intros [= <- <-]; reflexivity].
  destruct (negb (known_unit u)); [intros [= <- <-]; reflexivity|].
  destruct (convert_unit q u (unit e)) as [[c|]|]; simpl; try discriminate;
    [|intros [= <- <-]; reflexivity].
  destruct (negb (Qle_bool c (quantity e))); intros [= <- <-];
    [reflexivity | now apply dict_get_set_other].
Qed.

(** [X11] An addition or a consumption touches the entry of its own name
    only: the entry of every other name is the same afterwards, whatever
    the outcome. *)
Theorem operations_frame (inv : inventory) (name u k : string) (q : Q) :
  k <> name ->
  (forall r inv', add_ingredient inv name u q = Return (r, inv') ->
                  dict_get inv' k = dict_get inv k) /\
  (forall r inv', consume_ingredient inv name u q = Return (r, inv') ->
                  dict_get inv' k = dict_get inv k).
Proof.
  intros Hk. split; intros r inv' H.
  - exact (add_ingredient_frame _ _ _ _ _ _ _ Hk H).
  - exact (consume_ingredient_frame _ _ _ _ _ _ _ Hk H).
Qed.

Lemma operations_frame_witness :
  "salt" <> "flour" /\
  (forall r inv',
      add_ingredient [("salt", Stock 5 "g"); ("flour", Stock 1 "kg")] "flour" "g" 200
      = Return (r, inv') ->
      dict_get inv' "salt"
      = dict_get [("salt", Stock 5 "g"); ("flour", Stock 1 "kg")] "salt").
Proof.
  split; [discriminate|].
  exact (proj1 (operations_frame [("salt", Stock 5 "g"); ("flour", Stock 1 "kg")]
                  "flour" "g" "salt" 200 ltac:(discriminate))).
Defined.

(** [X12] Started from the empty inventory, the program never stores two
    entries under one name and never stores the empty name. *)
Theorem reachable_names_distinct (ops : list op) (inv : inventory) :
  run [] ops = Return inv ->
  NoDup (dict_keys inv) /\ ~ In EmptyString (dict_keys inv).
Proof.
  assert (Hgen : forall ops inv0 inv1,
             NoDup (dict_keys inv0) /\ ~ In EmptyString (dict_keys inv0) ->
             run inv0 ops = Return inv1 ->
             NoDup (dict_keys inv1) /\ ~ In EmptyString (dict_keys inv1)).
  { clear. induction ops as [|o ops IH]; simpl; intros inv0 inv1 H0.
    - intros [= <-]. exact H0.
    - destruct (step inv0 o) as [inv2|] eqn:E; simpl; [|discriminate].
      apply IH. destruct H0 as (Hnd & Hne).
      destruct (step_keys _ _ _ E) as [Hk | (name & Hname & Habs & Hk)];
        rewrite Hk; [now split|].
      apply dict_get_None_keys in Habs. split.
      + apply NoDup_app; [exact Hnd | repeat constructor; intros [] |].
        intros a Ha [<- | []]. contradiction.
      + rewrite in_app_iff. intros [H | [H | []]]; [contradiction | congruence]. }
  apply Hgen. split; [constructor | intros []].
Qed.

Lemma reachable_names_distinct_witness :
  run [] [OpAdd "flour" "g" 5; OpAdd EmptyString "g" 5; OpAdd "flour" "kg" 1; OpAdd "salt" "g" 1]
  = Return [("flour", Stock (5 + 1 * 1000 / 1) "g"); ("salt", Stock 1 "g")] /\
  NoDup (dict_keys [("flour", Stock (5 + 1 * 1000 / 1) "g"); ("salt", Stock 1 "g")]) /\
  ~ In EmptyString
       (dict_keys [("flour", Stock (5 + 1 * 1000 / 1) "g"); ("salt", Stock 1 "g")]).
Proof.
  assert (H : run [] [OpAdd "flour" "g" 5; OpAdd EmptyString "g" 5; OpAdd "flour" "kg" 1;
                      OpAdd "salt" "g" 1]
              = Return [("flour", Stock (5 + 1 * 1000 / 1) "g"); ("salt", Stock 1 "g")])
    by reflexivity.
  split; [exact H|].
  exact (reachable_names_distinct _ _ H).
Defined.

(** ** How the operations compose *)





(** [X15] The unit of an entry changes only while its quantity is 0: an
    operation run on an inventory where the entry of [k] has a quantity
    other than 0 leaves that entry in place with the same unit. *)
Theorem unit_changes_only_at_zero (inv inv' : inventory) (o : op) (k : string) (e : stock) :
  step inv o = Return inv' ->
  dict_get inv k = Some e -> ~ quantity e == 0 ->
  exists e', dict_get inv' k = Some e' /\ unit e' = unit e.
Proof.
  intros Hstep He Hnz.
  assert (Hz : Qeq_bool (quantity e) 0 = false).
  { destruct (Qeq_bool (quantity e) 0) eqn:E; [|reflexivity].
    apply Qeq_bool_iff in E. contradiction. }
  destruct o as [name u q| |name u q|answers]; simpl in Hstep.
  - destruct (add_ingredient inv name u q) as [[r inv1]|] eqn:E; simpl in Hstep;
      [|discriminate].
    injection Hstep as <-.
    destruct (string_dec k name) as [-> | Hne].
    + revert E. unfold add_ingredient.
      destruct (String.eqb name EmptyString); [intros [= <- <-]; eauto|].
      destruct (negb (known_unit u)); [intros [= <- <-]; eauto|].
      rewrite He, Hz.
      destruct (convert_unit q u (unit e)) as [[c|]|]; simpl; try discriminate;
        intros [= <- <-]; [|eauto].
      eexists. split; [apply dict_get_set_same | reflexivity].
    + exists e. split; [|reflexivity].
      rewrite <- He. exact (add_ingredient_frame _ _ _ _ _ _ _ Hne E).
  - destruct (view_inventory inv); simpl in Hstep; [|discriminate].
    injection Hstep as <-. eauto.
  - destruct (consume_ingredient inv name u q) as [[r inv1]|] eqn:E; simpl in Hstep;
      [|discriminate].
    injection Hstep as <-.
    destruct (string_dec k name) as [-> | Hne].
    + revert E. unfold consume_ingredient. rewrite He.
      destruct (negb (known_unit u)); [intros [= <- <-]; eauto|].
      destruct (convert_unit q u (unit e)) as [[c|]|]; simpl; try discriminate;
        [|intros [= <- <-]; eauto].
      destruct (negb (Qle_bool c (quantity e))); intros [= <- <-]; [eauto|].
      eexists. split; [apply dict_get_set_same | reflexivity].
    + exists e. split; [|reflexivity].
      rewrite <- He. exact (consume_ingredient_frame _ _ _ _ _ _ _ Hne E).
  - destruct (search_ingredient inv answers); simpl in Hstep; [|discriminate].
    injection Hstep as <-. eauto.
Qed.

Lemma unit_changes_only_at_zero_witness :
  step [("flour", Stock 800 "g")] (OpAdd "flour" "lb" 1)
  = Return [("flour", Stock (800 + 1 * 453.592 / 1) "g")] /\
  dict_get [("flour", Stock 800 "g")] "flour" = Some (Stock 800 "g") /\
  ~ quantity (Stock 800 "g") == 0 /\
  exists e', dict_get [("flour", Stock (800 + 1 * 453.592 / 1) "g")] "flour" = Some e' /\
             unit e' = unit (Stock 800 "g").
Proof.
  assert (H : step [("flour", Stock 800 "g")] (OpAdd "flour" "lb" 1)
              = Return [("flour", Stock (800 + 1 * 453.592 / 1) "g")]) by reflexivity.
  assert (Hnz : ~ quantity (Stock 800 "g") == 0) by discriminate.
  split; [exact H|]. split; [reflexivity|]. split; [exact Hnz|].
  exact (unit_changes_only_at_zero _ _ _ "flour" (Stock 800 "g") H eq_refl Hnz).
Defined.

(** ** Display and search *)

Lemma show_entry_fields (name : string) (data : stock) (s : shown) :
  show_entry name data = Return s ->
  shown_name s = name /\ shown_qty s = quantity data /\ shown_unit s = unit data /\
  exists r w,
    auto_convert (quantity data) (unit data) = Return (r, w) /\
    shown_approx s = if negb (String.eqb w (unit data)) then Some (r, w) else None.
Proof.
  unfold show_entry.
  destruct (auto_convert (quantity data) (unit data)) as [[r w]|]; simpl;
    [|discriminate].
  intros [= <-]. simpl. repeat split. exists r, w. split; reflexivity.
Qed.

Lemma show_entries_fields (items : list (string * stock)) (ss : list shown) :
  show_entries items = Return ss ->
  map (fun s => (shown_name s, Stock (shown_qty s) (shown_unit s))) ss = items.
Proof.
  revert ss. induction items as [|[name data] items IH]; simpl; intros ss.
  - intros [= <-]. reflexivity.
  - destruct (show_entry name data) as [s|] eqn:E; simpl; [|discriminate].
    destruct (show_entries items) as [ss'|]; simpl; [|discriminate].
    intros [= <-]. simpl. rewrite (IH ss' eq_refl).
    destruct (show_entry_fields _ _ _ E) as (-> & -> & -> & _).
    now destruct data.
Qed.

Lemma all_zero_forallb (inv : inventory) :
  forallb (fun data => Qeq_bool (quantity data) 0) (dict_values inv) = true <->
  forall name e, In (name, e) inv -> quantity e == 0.
Proof.
  unfold dict_values. rewrite forallb_forall. split.
  - intros H name e Hin. apply Qeq_bool_iff, H.
    apply in_map_iff. exists (name, e). now split.
  - intros H data Hin. apply in_map_iff in Hin.
    destruct Hin as ([name e] & <- & Hin). apply Qeq_bool_iff. exact (H _ _ Hin).
Qed.

(** [X16] [view_inventory] reports the inventory as empty exactly when
    every entry has quantity 0 (in particular when there is no entry);
    otherwise it lists every entry, those with quantity 0 included, in
    insertion order, each with its stored quantity and unit. *)
Theorem view_inventory_listing (inv : inventory) :
  (view_inventory inv = Return None <->
   forall name e, In (name, e) inv -> quantity e == 0)
  /\
  (forall ss,
      view_inventory inv = Return (Some ss) ->
      map (fun s => (shown_name s, Stock (shown_qty s) (shown_unit s))) ss = inv).
Proof.
  unfold view_inventory.
  destruct (show_entries_total inv) as (ss0 & Hss).
  destruct (dict_empty inv || _) eqn:C.
  - split; [|discriminate]. split; [|reflexivity].
    intros _. apply orb_true_iff in C. destruct C as [C | C].
    + destruct inv; [intros ? ? [] | discriminate].
    + now apply all_zero_forallb.
  - apply orb_false_iff in C. destruct C as (_ & C).
    rewrite Hss. simpl. split.
    + split; [discriminate|].
      intros H. apply all_zero_forallb in H. congruence.
    + intros ss [= <-]. exact (show_entries_fields _ _ Hss).
Qed.

(** [X17] The line shown under an entry, when there is one, names another
    unit than the stored one, of the same category, with a quantity of at
    least 1. *)
Theorem show_entry_approx (name : string) (data : stock) (s : shown) (r : Q) (w : string) :
  show_entry name data = Return s -> shown_approx s = Some (r, w) ->
  w <> unit data /\ get_unit_type w = get_unit_type (unit data) /\ 1 <= r.
Proof.
  intros Hs Ha.
  destruct (show_entry_fields _ _ _ Hs) as (_ & _ & _ & r' & w' & Hauto & Happrox).
  rewrite Ha in Happrox.
  destruct (String.eqb w' (unit data)) eqn:E; simpl in Happrox; [discriminate|].
  injection Happrox as <- <-. apply String.eqb_neq in E.
  split; [exact E|].
  destruct (auto_convert_cases _ _ _ _ Hauto) as [(_ & Hw) | Hscan];
    [contradiction|].
  destruct Hscan as (c & units & f & Hu & Hunits & Hin & Hpos & Hle & ->).
  split.
  - rewrite Hu. apply member_unit_type with (units := units).
    + exact (units_of_dict_get _ _ Hunits).
    + exact (In_dict_mem _ _ _ Hin).
  - apply round2_ge_1. apply Qle_shift_div_l; [exact Hpos|]. now rewrite Qmult_1_l.
Qed.

Lemma show_entry_approx_witness :
  show_entry "flour" (Stock 1500 "g")
  = Return (Shown "flour" 1500 "g" (Some (1.50, "kg"))) /\
  shown_approx (Shown "flour" 1500 "g" (Some (1.50, "kg"))) = Some (1.50, "kg") /\
  "kg" <> unit (Stock 1500 "g") /\
  get_unit_type "kg" = get_unit_type (unit (Stock 1500 "g")) /\ 1 <= 1.50.
Proof.
  assert (H : show_entry "flour" (Stock 1500 "g")
              = Return (Shown "flour" 1500 "g" (Some (1.50, "kg"))))
    by (vm_compute; reflexivity).
  split; [exact H|]. split; [reflexivity|].
  exact (show_entry_approx "flour" (Stock 1500 "g") _ 1.50 "kg" H eq_refl).
Defined.

(** [X18] [search_ingredient] shows an entry exactly when some answer names
    an entry of the inventory and every answer before it named none and was
    followed by the wish to search again; what it shows is that entry. *)
Theorem search_ingredient_finds
  (inv : inventory) (answers : list (string * bool)) (s : shown) :
  search_ingredient inv answers = Return (Some s) <->
  exists pre name again post e,
    answers = (pre ++ (name, again) :: post)%list /\
    Forall (fun a => dict_get inv (fst a) = None /\ snd a = true) pre /\
    dict_get inv name = Some e /\ show_entry name e = Return s.
Proof.
  split.
  - induction answers as [|[name again] answers IH]; simpl; [discriminate|].
    destruct (dict_get inv name) as [e|] eqn:He.
    + destruct (show_entry name e) as [s'|] eqn:Hs; simpl; [|discriminate].
      intros [= <-]. exists [], name, again, answers, e. simpl. auto.
    + destruct again; [|discriminate].
      intros H. destruct (IH H) as (pre & n & a & post & e & -> & Hpre & Hn & Hs).
      exists ((name, true) :: pre), n, a, post, e. simpl. auto.
  - intros (pre & name & again & post & e & -> & Hpre & He & Hs).
    induction Hpre as [|[n a] pre (Hn & Ha) _ IH]; simpl.
    + rewrite He, Hs. reflexivity.
    + simpl in Hn, Ha. rewrite Hn, Ha. exact IH.
Qed.

(** [X19] Entries whose quantity is 0 are hidden by the display but are
    still found by a search: when every entry has quantity 0, the display
    reports an empty inventory, and a search for a stored name shows its
    entry. *)
Theorem zero_stock_hidden_but_found
  (inv : inventory) (name : string) (again : bool) (e : stock) :
  (forall n e', In (n, e') inv -> quantity e' == 0) ->
  dict_get inv name = Some e ->
  view_inventory inv = Return None /\
  exists s, search_ingredient inv [(name, again)] = Return (Some s) /\
            shown_name s = name /\ shown_qty s = quantity e /\ shown_unit s = unit e.
Proof.
  intros Hzero He. split.
  - unfold view_inventory. apply all_zero_forallb in Hzero. rewrite Hzero.
    now rewrite orb_true_r.
  - simpl. rewrite He.
    destruct (show_entry_total name e) as (s & Hs). rewrite Hs. simpl.
    exists s. split; [reflexivity|].
    destruct (show_entry_fields _ _ _ Hs) as (? & ? & ? & _). auto.
Qed.

Lemma zero_stock_hidden_but_found_witness :
  (forall n e', In (n, e') [("flour", Stock 0 "g")] -> quantity e' == 0) /\
  dict_get [("flour", Stock 0 "g")] "flour" = Some (Stock 0 "g") /\
  view_inventory [("flour", Stock 0 "g")] = Return None /\
  exists s, search_ingredient [("flour", Stock 0 "g")] [("flour", false)]
            = Return (Some s) /\
            shown_name s = "flour" /\ shown_qty s = quantity (Stock 0 "g") /\
            shown_unit s = unit (Stock 0 "g").
Proof.
  assert (H : forall n e', In (n, e') [("flour", Stock 0 "g")] -> quantity e' == 0).
  { intros n e' [[= <- <-] | []]. reflexivity. }
  split; [exact H|]. split; [reflexivity|].
  exact (zero_stock_hidden_but_found [("flour", Stock 0 "g")] "flour" false
           (Stock 0 "g") H eq_refl).
Defined.

(** ** Input validation *)

(** [X20] [get_validated_positive_float] returns the first answer that
    parses as a number greater than zero: every answer before it did not
    parse or was zero or negative.  No other value is ever returned. *)
Theorem get_validated_positive_float_first (answers : list (option Q)) (value : Q) :
  get_validated_positive_float answers = Some value <->
  exists pre post,
    answers = (pre ++ Some value :: post)%list /\ 0 < value /\
    Forall (fun a => match a with Some x => x <= 0 | None => True end) pre.
Proof.
  split.
  - induction answers as [|[a|] answers IH]; simpl; [discriminate| |].
    + destruct (Qle_bool a 0) eqn:E; simpl.
      * intros H. destruct (IH H) as (pre & post & -> & Hv & Hpre).
        exists (Some a :: pre), post. repeat split; auto.
        constructor; [now apply Qle_bool_iff | exact Hpre].
      * intros [= <-]. exists [], answers. repeat split; auto.
        now apply Qle_bool_false.
    + intros H. destruct (IH H) as (pre & post & -> & Hv & Hpre).
      exists (None :: pre), post. repeat split; auto.
  - intros (pre & post & -> & Hv & Hpre).
    induction Hpre as [|[a|] pre Ha _ IH]; simpl.
    + apply Qle_bool_false in Hv. now rewrite Hv.
    + apply Qle_bool_iff in Ha. now rewrite Ha.
    + exact IH.
Qed.

(** ** No table lookup fails *)

Lemma add_ingredient_total (inv : inventory) (name u : string) (q : Q) :
  exists r inv', add_ingredient inv name u q = Return (r, inv').
Proof.
  unfold add_ingredient.
  destruct (String.eqb name EmptyString); [eauto|].
  destruct (negb (known_unit u)); [eauto|].
  destruct (dict_get inv name) as [e|]; [|eauto].
  destruct (Qeq_bool (quantity e) 0); [eauto|].
  destruct (convert_unit_total q u (unit e)) as ([c|] & E); rewrite E; simpl; eauto.
Qed.

Lemma consume_ingredient_total (inv : inventory) (name u : string) (q : Q) :
  exists r inv', consume_ingredient inv name u q = Return (r, inv').
Proof.
  unfold consume_ingredient.
  destruct (dict_get inv name) as [e|]; [|eauto].
  destruct (negb (known_unit u)); [eauto|].
  destruct (convert_unit_total q u (unit e)) as ([c|] & E); rewrite E; simpl;
    [|eauto].
  destruct (negb (Qle_bool c (quantity e))); eauto.
Qed.

(** [X21] No run of the menu operations stops on a [KeyError], whatever the
    inventory it starts from (entries with units outside the catalog or
    negative quantities included) and whatever values the operations are
    given: each indexing of [CONVERSION_FACTORS] is guarded by a category
    lookup that succeeded. *)
Theorem run_never_raises (inv : inventory) (ops : list op) :
  run inv ops <> Raise_KeyError.
Proof.
  revert inv. induction ops as [|o ops IH]; simpl; intros inv; [discriminate|].
  assert (Hstep : exists inv1, step inv o = Return inv1).
  { destruct o as [name u q| |name u q|answers]; simpl.
    - destruct (add_ingredient_total inv name u q) as (r & inv1 & E).
      rewrite E. simpl. eauto.
    - destruct (view_inventory_total inv) as (r & E). rewrite E. simpl. eauto.
    - destruct (consume_ingredient_total inv name u q) as (r & inv1 & E).
      rewrite E. simpl. eauto.
    - destruct (search_ingredient_total inv answers) as (r & E).
      rewrite E. simpl. eauto. }
  destruct Hstep as (inv1 & E). rewrite E. simpl. apply IH.
Qed.

(** ** The sort of [auto_convert] *)

(** [X22] The list [auto_convert] scans is the table of the category
    rearranged, nothing lost or repeated, in ascending order of factor
    before it is reversed and hence in descending order when scanned. *)
Theorem sorted_by_factor_sorts (l : list (string * Q)) :
  Permutation l (sorted_by_factor l) /\
  StronglySorted ascending (sorted_by_factor l) /\
  StronglySorted descending (rev (sorted_by_factor l)).
Proof.
  split; [|split].
  - induction l as [|x l IH]; simpl; [constructor|].
    apply Permutation_trans with (x :: sorted_by_factor l);
      [now constructor|].
    generalize (sorted_by_factor l). clear. intros m.
    induction m as [|y m IH]; simpl; [apply Permutation_refl|].
    destruct (Qle_bool (snd x) (snd y)); [apply Permutation_refl|].
    apply Permutation_trans with (y :: x :: m); [constructor | now constructor].
  - apply sorted_by_factor_sorted.
  - apply rev_ascending, sorted_by_factor_sorted.
Qed.

(** ** Consuming in steps *)



(** ** Refusals and the direction of changes *)

(** [X24] An operation that is refused changes nothing: unless
    [add_ingredient] answers [Updated], [Added] or [Created], and unless
    [consume_ingredient] answers [Consumed], the inventory afterwards is the
    inventory before; and these answers are never given by the other
    operation. *)
Theorem refusals_change_nothing (inv : inventory) (name u : string) (q : Q) :
  (forall r inv',
      add_ingredient inv name u q = Return (r, inv') ->
      (r = Updated \/ r = Added \/ r = Created) \/
      ((r = EmptyName \/ r = UnknownUnit \/ r = IncompatibleUnits) /\ inv' = inv))
  /\
  (forall r inv',
      consume_ingredient inv name u q = Return (r, inv') ->
      r = Consumed \/
      ((r = NotFound \/ r = UnknownUnit \/ r = IncompatibleUnits \/
        r = InsufficientStock) /\ inv' = inv)).
Proof.
  split; intros r inv'.
  - unfold add_ingredient.
    destruct (String.eqb name EmptyString); [intros [= <- <-]; right; auto|].
    destruct (negb (known_unit u)); [intros [= <- <-]; right; auto|].
    destruct (dict_get inv name) as [e|]; [|intros [= <- <-]; left; auto].
    destruct (Qeq_bool (quantity e) 0); [intros [= <- <-]; left; auto|].
    destruct (convert_unit q u (unit e)) as [[c|]|]; simpl; try discriminate;
      intros [= <- <-]; [left | right]; auto.
  - unfold consume_ingredient.
    destruct (dict_get inv name) as [e|]; [|intros [= <- <-]; right; auto].
    destruct (negb (known_unit u)); [intros [= <- <-]; right; auto|].
    destruct (convert_unit q u (unit e)) as [[c|]|]; simpl; try discriminate;
      [|intros [= <- <-]; right; auto].
    destruct (negb (Qle_bool c (quantity e))); intros [= <- <-];
      [right; auto 6 | left; reflexivity].
Qed.


